(** * The uptime ledger of csct-down

    A shallow embedding of the status-ledger update of the repository
    ([computeDurations] and the probe cycles around it, from [ping_csct.js]
    and [is-csct.status.js]) together with the properties its specification
    states about it.

    Conventions of the embedding.
    - A JavaScript [Date] is its [getTime()] value: an integer number of
      milliseconds, in [Z].
    - A JavaScript number holding seconds is an exact rational in canonical
      form ([Qc]); the rounding of IEEE doubles is not modelled.
    - A field that holds an ISO string or [null] is an [option DateString];
      a field that may be missing from the stored object is an [option].
      The three duration fields always hold numbers, as in every ledger
      the code writes.
    - [Date.now()], which the code reads when it builds an incident, is an
      explicit argument [clock]. *)

From Stdlib Require Import String ZArith QArith Qcanon Qround Bool List Lia.
From Stdlib Require Import Lqa.
Import ListNotations.

Set Implicit Arguments.

(* ================================================================== *)
(** ** JavaScript primitives used by the ledger code *)

Module JS.

Local Open Scope Qc_scope.

(** A JavaScript number (seconds). *)
Abbreviation Number := Qc.

(** [a <= b] and [a > b] on numbers, as booleans. *)
Definition leb (a b : Number) : bool := Qle_bool a b.
Definition gtb (a b : Number) : bool := negb (Qle_bool a b).
Definition eqb (a b : Number) : bool := Qeq_bool a b.

(** [Math.max(a, b)]. *)
Definition Math_max (a b : Number) : Number := if leb a b then b else a.

(** [Math.round(x)]: the nearest integer, halves rounded up. *)
Definition Math_round (x : Number) : Z := Qfloor (this x + (1 # 2))%Q.

(** [x || 0] on a number: zero is the only falsy rational. *)
Definition orZero (x : Number) : Number := if eqb x 0 then 0 else x.

(** [ms / 1000] for an integer number of milliseconds. *)
Definition div1000 (ms : Z) : Number := Q2Qc (ms # 1000).

(** A non-empty string held by a timestamp field: either the output of
    [toISOString()] for the date whose [getTime()] is [t], or some
    other text, which [new Date(...)] turns into an invalid date. *)
Inductive DateString : Type :=
| Iso (t : Z)
| NotADate (s : string).

Definition toISOString (now : Z) : DateString := Iso now.

(** [new Date(s).getTime()]; [None] stands for [NaN]. *)
Definition getTime (s : DateString) : option Z :=
  match s with
  | Iso t => Some t
  | NotADate _ => None
  end.

(** Truthiness of a field that is [null] or a non-empty string. *)
Definition truthy {A : Type} (o : option A) : bool :=
  match o with Some _ => true | None => false end.

(** [xs || []]: every array is truthy. *)
Definition orEmpty {A : Type} (o : option (list A)) : list A :=
  match o with Some xs => xs | None => [] end.

(** [n || 0] on a counter that may be missing. *)
Definition orZeroZ (o : option Z) : Z :=
  match o with
  | Some n => if (n =? 0)%Z then 0%Z else n
  | None => 0%Z
  end.

(** [xs.slice(0, n)]. *)
Definition slice0 {A : Type} (n : nat) (xs : list A) : list A := firstn n xs.

(** Completion of a computation that may throw. *)
Inductive Completion (A : Type) : Type :=
| Normal (a : A)
| Throws (e : string).
Arguments Normal {A} a.
Arguments Throws {A} e.

Definition bind {A B : Type} (c : Completion A) (k : A -> Completion B)
  : Completion B :=
  match c with
  | Normal a => k a
  | Throws e => Throws e
  end.

(** [try { body } catch { handler }]. *)
Definition try_catch {A : Type} (body : Completion A)
           (handler : string -> Completion A) : Completion A :=
  match body with
  | Normal a => Normal a
  | Throws e => handler e
  end.

End JS.

Import JS.

(* ================================================================== *)
(** ** The persisted record *)

(** [lastStatus]: the code compares it with ['online'] and ['offline']
    only, so every other stored value behaves as ['unknown']. *)
Inductive Status : Type := Unknown | Online | Offline.

Definition Status_eqb (a b : Status) : bool :=
  match a, b with
  | Unknown, Unknown | Online, Online | Offline, Offline => true
  | _, _ => false
  end.

Record Incident : Type := mkIncident
  { startTime : DateString;
    endTime : DateString;
    duration : Z;
    id : Z }.

Record PortTest : Type := mkPortTest
  { port : Z;
    succeeded : bool }.

Record Ledger : Type := mkLedger
  { lastOnline : option DateString;
    lastStatus : Status;
    lastStatusChange : option DateString;
    currentStreakSeconds : Number;
    totalUpSeconds : Number;
    totalDownSeconds : Number;
    lastChecked : option DateString;
    downtimeIncidents : option (list Incident);
    totalOutages : option Z;
    latency : option Z;
    error : option string;
    portTest : option PortTest }.

(** Assignments [updated.field = v]. *)
Definition set_lastOnline v (s : Ledger) : Ledger :=
  mkLedger v (lastStatus s) (lastStatusChange s) (currentStreakSeconds s)
           (totalUpSeconds s) (totalDownSeconds s) (lastChecked s)
           (downtimeIncidents s) (totalOutages s) (latency s) (error s)
           (portTest s).
Definition set_lastStatus v (s : Ledger) : Ledger :=
  mkLedger (lastOnline s) v (lastStatusChange s) (currentStreakSeconds s)
           (totalUpSeconds s) (totalDownSeconds s) (lastChecked s)
           (downtimeIncidents s) (totalOutages s) (latency s) (error s)
           (portTest s).
Definition set_lastStatusChange v (s : Ledger) : Ledger :=
  mkLedger (lastOnline s) (lastStatus s) v (currentStreakSeconds s)
           (totalUpSeconds s) (totalDownSeconds s) (lastChecked s)
           (downtimeIncidents s) (totalOutages s) (latency s) (error s)
           (portTest s).
Definition set_currentStreakSeconds v (s : Ledger) : Ledger :=
  mkLedger (lastOnline s) (lastStatus s) (lastStatusChange s) v
           (totalUpSeconds s) (totalDownSeconds s) (lastChecked s)
           (downtimeIncidents s) (totalOutages s) (latency s) (error s)
           (portTest s).
Definition set_totalUpSeconds v (s : Ledger) : Ledger :=
  mkLedger (lastOnline s) (lastStatus s) (lastStatusChange s)
           (currentStreakSeconds s) v (totalDownSeconds s) (lastChecked s)
           (downtimeIncidents s) (totalOutages s) (latency s) (error s)
           (portTest s).
Definition set_totalDownSeconds v (s : Ledger) : Ledger :=
  mkLedger (lastOnline s) (lastStatus s) (lastStatusChange s)
           (currentStreakSeconds s) (totalUpSeconds s) v (lastChecked s)
           (downtimeIncidents s) (totalOutages s) (latency s) (error s)
           (portTest s).
Definition set_lastChecked v (s : Ledger) : Ledger :=
  mkLedger (lastOnline s) (lastStatus s) (lastStatusChange s)
           (currentStreakSeconds s) (totalUpSeconds s) (totalDownSeconds s) v
           (downtimeIncidents s) (totalOutages s) (latency s) (error s)
           (portTest s).
Definition set_downtimeIncidents v (s : Ledger) : Ledger :=
  mkLedger (lastOnline s) (lastStatus s) (lastStatusChange s)
           (currentStreakSeconds s) (totalUpSeconds s) (totalDownSeconds s)
           (lastChecked s) v (totalOutages s) (latency s) (error s)
           (portTest s).
Definition set_totalOutages v (s : Ledger) : Ledger :=
  mkLedger (lastOnline s) (lastStatus s) (lastStatusChange s)
           (currentStreakSeconds s) (totalUpSeconds s) (totalDownSeconds s)
           (lastChecked s) (downtimeIncidents s) v (latency s) (error s)
           (portTest s).
Definition set_latency v (s : Ledger) : Ledger :=
  mkLedger (lastOnline s) (lastStatus s) (lastStatusChange s)
           (currentStreakSeconds s) (totalUpSeconds s) (totalDownSeconds s)
           (lastChecked s) (downtimeIncidents s) (totalOutages s) v (error s)
           (portTest s).
Definition set_error v (s : Ledger) : Ledger :=
  mkLedger (lastOnline s) (lastStatus s) (lastStatusChange s)
           (currentStreakSeconds s) (totalUpSeconds s) (totalDownSeconds s)
           (lastChecked s) (downtimeIncidents s) (totalOutages s) (latency s) v
           (portTest s).
Definition set_portTest v (s : Ledger) : Ledger :=
  mkLedger (lastOnline s) (lastStatus s) (lastStatusChange s)
           (currentStreakSeconds s) (totalUpSeconds s) (totalDownSeconds s)
           (lastChecked s) (downtimeIncidents s) (totalOutages s) (latency s)
           (error s) v.

(* ================================================================== *)
(** ** Stored text and probe results *)

(** A stored string, represented by what [JSON.parse] makes of it: the
    serialization of a ledger, or text that [JSON.parse] rejects (the empty
    string among it). *)
Inductive Text : Type :=
| Serialized (status : Ledger)
| Malformed (raw : string).

Definition JSON_stringify (status : Ledger) : Text := Serialized status.

Definition JSON_parse (raw : Text) : Completion Ledger :=
  match raw with
  | Serialized status => Normal status
  | Malformed _ => Throws "SyntaxError"
  end.

(** Truthiness of a string: only the empty one is falsy. *)
Definition truthyText (raw : Text) : bool :=
  match raw with
  | Malformed EmptyString => false
  | _ => true
  end.

Module Probe.

(** What [pingHost()] resolves to. *)
Record Observation : Type := mkObservation
  { online : bool;
    latency : option Z;
    error : option string }.

End Probe.

(* ================================================================== *)
(** ** ping_csct.js: the ledger with downtime incidents *)

Module PingCsct.

Local Open Scope Qc_scope.

(** The object the [catch] branch of [readStatusFile] returns. *)
Definition defaultStatus : Ledger :=
  {| lastOnline := None;
     lastStatus := Unknown;
     lastStatusChange := None;
     currentStreakSeconds := 0;
     totalUpSeconds := 0;
     totalDownSeconds := 0;
     lastChecked := None;
     downtimeIncidents := Some [];
     totalOutages := Some 0%Z;
     latency := None;
     error := None;
     portTest := None |}.

(** [deltaSeconds] as [computeDurations] computes it: zero unless
    [prevStatus.lastChecked] is a string that parses to a valid date. *)
Definition deltaSeconds (prevStatus : Ledger) (now : Z) : Number :=
  match lastChecked prevStatus with
  | Some s =>
      match getTime s with
      | Some t => Math_max 0 (div1000 (now - t))
      | None => 0
      end
  | None => 0
  end.

(** [Math.max(0, (now.getTime() - downtimeStart.getTime()) / 1000)];
    [None] stands for [NaN]. *)
Definition downtimeDuration (start : DateString) (now : Z) : option Number :=
  match getTime start with
  | Some t => Some (Math_max 0 (div1000 (now - t)))
  | None => None
  end.

(** [computeDurations(prevStatus, now, isOnline)]; [clock] is the value
    [Date.now()] returns during the call. *)
Definition computeDurations (clock : Z) (prevStatus : Ledger) (now : Z)
           (isOnline : bool) : Ledger :=
  let updated := prevStatus in
  let nowIso := toISOString now in
  let deltaSeconds := deltaSeconds prevStatus now in
  let updated :=
    match lastStatus prevStatus with
    | Online =>
        set_totalUpSeconds
          (orZero (totalUpSeconds prevStatus) + deltaSeconds) updated
    | Offline =>
        set_totalDownSeconds
          (orZero (totalDownSeconds prevStatus) + deltaSeconds) updated
    | Unknown => updated
    end in
  let newStatus := if isOnline then Online else Offline in
  let wasOffline := Status_eqb (lastStatus prevStatus) Offline in
  let updated :=
    if negb (Status_eqb newStatus (lastStatus prevStatus)) then
      let updated := set_lastStatus newStatus updated in
      let updated := set_lastStatusChange (Some nowIso) updated in
      let updated :=
        (* if (isOnline && wasOffline && prevStatus.lastStatusChange):
           the last conjunct is the [Some] case, [start] the string *)
        match lastStatusChange prevStatus with
        | Some start =>
            if isOnline && wasOffline then
              match downtimeDuration start now with
              | Some d =>
                  if gtb d 0 then
                    let incident :=
                      {| startTime := start;
                         endTime := nowIso;
                         duration := Math_round d;
                         id := clock |} in
                    let updated :=
                      set_downtimeIncidents
                        (Some (incident ::
                                 slice0 9 (orEmpty
                                             (downtimeIncidents prevStatus))))
                        updated in
                    set_totalOutages
                      (Some (orZeroZ (totalOutages prevStatus) + 1)%Z)
                      updated
                  else updated
              | None => updated
              end
            else updated
        | None => updated
        end in
      set_currentStreakSeconds 0 updated
    else
      set_currentStreakSeconds
        (orZero (currentStreakSeconds prevStatus) + deltaSeconds) updated in
  let updated :=
    if isOnline then set_lastOnline (Some nowIso) updated else updated in
  let updated :=
    set_downtimeIncidents (Some (orEmpty (downtimeIncidents updated)))
                          updated in
  let updated :=
    set_totalOutages (Some (orZeroZ (totalOutages updated))) updated in
  set_lastChecked (Some nowIso) updated.

(** The file [status.json] as [fs.readFileSync] finds it. *)
Definition File := option Text.

Definition readFileSync (f : File) : Completion Text :=
  match f with
  | Some raw => Normal raw
  | None => Throws "ENOENT"
  end.

(** [readStatusFile()]. *)
Definition readStatusFile (f : File) : Completion Ledger :=
  try_catch
    (bind (readFileSync f) (fun raw => JSON_parse raw))
    (fun _ => Normal defaultStatus).

(** [writeStatusFile(status)]: the new content of the file.  (A write
    that fails ends the run; that case is left out.) *)
Definition writeStatusFile (status : Ledger) : File :=
  Some (JSON_stringify status).

Definition TARGET_PORT : Z := 22.

(** One run of [main()]: [now] is the [new Date()] taken first, [f] the
    file, [obs] what [pingHost()] resolves to and [clock] the later
    reading of [Date.now()].  The result is the ledger written and the
    file after the run. *)
Definition main (clock : Z) (f : File) (now : Z) (obs : Probe.Observation)
  : Completion (Ledger * File) :=
  bind (readStatusFile f) (fun prevStatus =>
    let nextStatus :=
      computeDurations clock prevStatus now (Probe.online obs) in
    let nextStatus :=
      match Probe.latency obs with
      | Some ms => set_latency (Some ms) nextStatus
      | None => nextStatus
      end in
    let nextStatus :=
      set_portTest
        (Some {| port := TARGET_PORT; succeeded := Probe.online obs |})
        nextStatus in
    Normal (nextStatus, writeStatusFile nextStatus)).

End PingCsct.

(* ================================================================== *)
(** ** is-csct.status.js: the browser-side cycle *)

Module IsCsctStatus.

Local Open Scope Qc_scope.

(** [localStorage] under [storageKey]: unavailable (every access
    throws), or holding an item or nothing. *)
Inductive LocalStorage : Type :=
| Unavailable
| Holds (item : option Text).

Definition getItem (st : LocalStorage) : Completion (option Text) :=
  match st with
  | Unavailable => Throws "SecurityError"
  | Holds item => Normal item
  end.

(** [getDefaultStatus()]: this file's default has no incident fields. *)
Definition getDefaultStatus : Ledger :=
  {| lastOnline := None;
     lastStatus := Unknown;
     lastStatusChange := None;
     currentStreakSeconds := 0;
     totalUpSeconds := 0;
     totalDownSeconds := 0;
     lastChecked := None;
     downtimeIncidents := None;
     totalOutages := None;
     latency := None;
     error := None;
     portTest := None |}.

(** [getStoredStatus()]. *)
Definition getStoredStatus (st : LocalStorage) : Completion Ledger :=
  try_catch
    (bind (getItem st) (fun stored =>
       match stored with
       | Some raw =>
           if truthyText raw then JSON_parse raw
           else Normal getDefaultStatus
       | None => Normal getDefaultStatus
       end))
    (fun _ => Normal getDefaultStatus).

(** [saveStatus(status)]: a failing [setItem] is caught and leaves the
    storage as it was. *)
Definition saveStatus (st : LocalStorage) (status : Ledger) : LocalStorage :=
  match st with
  | Unavailable => Unavailable
  | Holds _ => Holds (Some (JSON_stringify status))
  end.

(** [computeDurations(prevStatus, now, isOnline)] of this file. *)
Definition computeDurations (prevStatus : Ledger) (now : Z)
           (isOnline : bool) : Ledger :=
  let updated := prevStatus in
  let nowIso := toISOString now in
  let deltaSeconds := PingCsct.deltaSeconds prevStatus now in
  let updated :=
    match lastStatus prevStatus with
    | Online =>
        set_totalUpSeconds
          (orZero (totalUpSeconds prevStatus) + deltaSeconds) updated
    | Offline =>
        set_totalDownSeconds
          (orZero (totalDownSeconds prevStatus) + deltaSeconds) updated
    | Unknown => updated
    end in
  let newStatus := if isOnline then Online else Offline in
  let updated :=
    if negb (Status_eqb newStatus (lastStatus prevStatus)) then
      let updated := set_lastStatus newStatus updated in
      let updated := set_lastStatusChange (Some nowIso) updated in
      set_currentStreakSeconds 0 updated
    else
      set_currentStreakSeconds
        (orZero (currentStreakSeconds prevStatus) + deltaSeconds) updated in
  let updated :=
    if isOnline then set_lastOnline (Some nowIso) updated else updated in
  set_lastChecked (Some nowIso) updated.

(** How the [fetch] inside [checkServerStatus] ends: resolved after
    [latency] milliseconds, or rejected with an error of name [name]. *)
Inductive FetchResult : Type :=
| Resolved (latency : Z)
| Rejected (name : string).

(** One run of [checkServerStatus()]: the ledger saved and shown, and the
    storage after the run. *)
Definition checkServerStatus (st : LocalStorage) (now : Z) (r : FetchResult)
  : Completion (Ledger * LocalStorage) :=
  bind (getStoredStatus st) (fun prevStatus =>
    match r with
    | Resolved ms =>
        let isOnline := true in
        let newStatus := computeDurations prevStatus now isOnline in
        let newStatus := set_latency (Some ms) newStatus in
        Normal (newStatus, saveStatus st newStatus)
    | Rejected name =>
        let isOnline := false in
        let newStatus := computeDurations prevStatus now isOnline in
        let newStatus := set_latency None newStatus in
        let newStatus :=
          set_error
            (Some (if String.eqb name "AbortError"
                   then "timeout" else "connection failed")%string)
            newStatus in
        Normal (newStatus, saveStatus st newStatus)
    end).

(** The response text [updateMetaInfo(status)] shows. *)
Inductive ResponseText : Type :=
| Dash
| Ms (latency : Z)
| LessThan1s
| Message (text : string).

(** [status.error || 'failed']. *)
Definition orFailed (o : option string) : string :=
  match o with
  | Some EmptyString | None => "failed"
  | Some text => text
  end.

(** [latencyText] as [updateMetaInfo(status)] computes it; the first
    test is [if (status.latency)], true of a number other than zero. *)
Definition latencyText (status : Ledger) : ResponseText :=
  if negb (orZeroZ (latency status) =? 0)%Z then
    Ms (orZeroZ (latency status))
  else
    match lastStatus status with
    | Online => LessThan1s
    | Offline => Message (orFailed (error status))
    | Unknown => Dash
    end.

End IsCsctStatus.

Import PingCsct.

(* ================================================================== *)
(** ** Notions used to state the properties *)

(** The status an observation stands for. *)
Definition newStatus (isOnline : bool) : Status :=
  if isOnline then Online else Offline.

(** The outage a check closes, in the words of the specification: the
    previous status is offline, the observation is online, and
    [lastStatusChange] is a date strictly before [now]; the result is
    that date. *)
Definition recoveryStart (prev : Ledger) (now : Z) (isOnline : bool)
  : option Z :=
  match lastStatus prev, isOnline, lastStatusChange prev with
  | Offline, true, Some (Iso t) => if (t <? now)%Z then Some t else None
  | _, _, _ => None
  end.

(** The incident of an outage from [t] to [now]. *)
Definition recoveryIncident (clock t now : Z) : Incident :=
  {| startTime := Iso t;
     endTime := Iso now;
     duration := Math_round (div1000 (now - t));
     id := clock |}.

(** [withNewestId c s]: the ledger [s] with the [id] of its first
    incident replaced by [c]. *)
Definition withNewestId (c : Z) (s : Ledger) : Ledger :=
  match downtimeIncidents s with
  | Some (inc :: rest) =>
      set_downtimeIncidents
        (Some ({| startTime := startTime inc;
                  endTime := endTime inc;
                  duration := duration inc;
                  id := c |} :: rest)) s
  | _ => s
  end.

(** The incident list and the outage counter as every reader of the
    ledger takes them: [downtimeIncidents || []] and
    [totalOutages || 0]. *)
Definition retained (s : Ledger) : list Incident :=
  orEmpty (downtimeIncidents s).

Definition outages (s : Ledger) : Z := orZeroZ (totalOutages s).

(** One call of [computeDurations] in a run: the clock reading, the time
    [now] and the observation. *)
Record Tick : Type := mkTick
  { clockAt : Z;
    timeOf : Z;
    onlineAt : bool }.

Definition applyTick (s : Ledger) (c : Tick) : Ledger :=
  computeDurations (clockAt c) s (timeOf c) (onlineAt c).

(** The ledger after a sequence of checks, each applied to the result of
    the one before. *)
Definition runTicks (s : Ledger) (cs : list Tick) : Ledger :=
  fold_left applyTick cs s.



Definition totalSeconds (s : Ledger) : Number :=
  (totalUpSeconds s + totalDownSeconds s)%Qc.


(** Timestamps that never step back, starting not before [from]. *)
Fixpoint nondecreasing (from : Z) (times : list Z) : Prop :=
  match times with
  | [] => True
  | t :: rest => (from <= t)%Z /\ nondecreasing t rest
  end.


(** *** Ledgers used as examples *)

(** A ledger in the state an outage leaves it: offline since time 0,
    last checked at time 0. *)
Definition offlineSinceZero : Ledger :=
  {| lastOnline := None;
     lastStatus := Offline;
     lastStatusChange := Some (Iso 0);
     currentStreakSeconds := 0%Qc;
     totalUpSeconds := 0%Qc;
     totalDownSeconds := 0%Qc;
     lastChecked := Some (Iso 0);
     downtimeIncidents := Some [];
     totalOutages := Some 0%Z;
     latency := None;
     error := None;
     portTest := None |}.



(* ================================================================== *)
(** ** is-csct.status.js: what the page shows *)

Module Presenter.

Local Open Scope Qc_scope.

(** The text [formatDuration] returns: ["Hh Mm"], ["Mm Ss"], ["Ss"], or
    ["NaNs"] when its argument is [NaN]. *)
Inductive DurationText : Type :=
| HoursMinutes (hours minutes : Z)
| MinutesSeconds (minutes secs : Z)
| SecondsOnly (secs : Z)
| NaNSeconds.

(** Truncation towards zero. *)
Definition truncate (x : Q) : Z :=
  if Qle_bool 0 x then Qfloor x else Qceiling x.

(** [x % n] for an integer [n]: the remainder has the sign of [x]. *)
Definition remainder (x : Q) (n : Z) : Q :=
  (x - inject_Z n * inject_Z (truncate (x / inject_Z n)))%Q.

(** [formatDuration(seconds)]. *)
Definition formatDuration (seconds : Number) : DurationText :=
  let hours := Qfloor (seconds / inject_Z 3600)%Q in
  let minutes := Qfloor (remainder seconds 3600 / inject_Z 60)%Q in
  let secs := Qfloor (remainder seconds 60) in
  if (0 <? hours)%Z then HoursMinutes hours minutes
  else if (0 <? minutes)%Z then MinutesSeconds minutes secs
  else SecondsOnly secs.

(** The text [formatRelativeTime] returns: ["Ns ago"], ["Nm ago"],
    ["Nh ago"] or ["Nd ago"]. *)
Inductive RelativeText : Type :=
| SecondsAgo (n : Z)
| MinutesAgo (n : Z)
| HoursAgo (n : Z)
| DaysAgo (n : Z).

(** [formatRelativeTime(date)], read at the time [now] of its
    [new Date()]. *)
Definition formatRelativeTime (now date : Z) : RelativeText :=
  let diffMs := (now - date)%Z in
  let diffSeconds := (diffMs / 1000)%Z in
  let diffMinutes := (diffSeconds / 60)%Z in
  let diffHours := (diffMinutes / 60)%Z in
  let diffDays := (diffHours / 24)%Z in
  if (diffSeconds <? 60)%Z then SecondsAgo diffSeconds
  else if (diffMinutes <? 60)%Z then MinutesAgo diffMinutes
  else if (diffHours <? 24)%Z then HoursAgo diffHours
  else DaysAgo diffDays.

(** The uptime figure: [x.toFixed(1)] as a sign and a number of tenths,
    or the plain number [0]. *)
Inductive PercentText : Type :=
| Fixed1 (minus : bool) (tenths : Z)
| PlainZero.

(** [x.toFixed(1)]: the tenths nearest to [|x|], the larger on a tie. *)
Definition toFixed1 (x : Number) : PercentText :=
  if gtb 0 x
  then Fixed1 true (Qfloor (- this x * inject_Z 10 + (1 # 2))%Q)
  else Fixed1 false (Qfloor (this x * inject_Z 10 + (1 # 2))%Q).

(** [totalSeconds > 0 ? ((totalUpSeconds / totalSeconds) * 100).toFixed(1)
    : 0]. *)
Definition uptimePercent (status : Ledger) : PercentText :=
  let totalSeconds := totalUpSeconds status + totalDownSeconds status in
  if gtb totalSeconds 0
  then toFixed1 (totalUpSeconds status / totalSeconds * Q2Qc (inject_Z 100))
  else PlainZero.

(** [status.lastStatus === 'online' ? 'online' : 'offline']. *)
Definition currentStatus (status : Ledger) : Status :=
  if Status_eqb (lastStatus status) Online then Online else Offline.

(** What [updateUptimeSummary] writes: the invitation to start
    monitoring, or the line
    ["Uptime: P% | Current streak: D online/offline"]. *)
Inductive Summary : Type :=
| BeginMonitoring
| UptimeLine (percent : PercentText) (streak : DurationText)
             (label : Status).

(** [updateUptimeSummary(status)]. *)
Definition updateUptimeSummary (status : Ledger) : Summary :=
  if eqb (totalUpSeconds status) 0 && eqb (totalDownSeconds status) 0
  then BeginMonitoring
  else UptimeLine (uptimePercent status)
                  (formatDuration (currentStreakSeconds status))
                  (currentStatus status).


End Presenter.

(* ================================================================== *)
(** ** The later versions of the page (src/unnamed/part_001, part_002) *)

Module ThemeManager.

Local Open Scope string_scope.

(** The page as the theme code sees it: the item stored under
    ['csct-theme-preference'] and the [data-theme] attribute. *)
Record Page : Type := mkPage
  { stored : option string;
    dataTheme : option string }.

(** [localStorage.getItem(this.storageKey) || 'system']. *)
Definition getCurrentTheme (p : Page) : string :=
  match stored p with
  | Some EmptyString | None => "system"
  | Some theme => theme
  end.

(** [applyTheme(theme)]: the attribute is removed, then set for ['dark']
    and ['light'] only. *)
Definition applyTheme (theme : string) (p : Page) : Page :=
  let p := {| stored := stored p; dataTheme := None |} in
  if String.eqb theme "dark" then
    {| stored := stored p; dataTheme := Some "dark" |}
  else if String.eqb theme "light" then
    {| stored := stored p; dataTheme := Some "light" |}
  else p.

(** [setTheme(theme)]. *)
Definition setTheme (theme : string) (p : Page) : Page :=
  applyTheme theme {| stored := Some theme; dataTheme := dataTheme p |}.

(** [toggleTheme()]. *)
Definition toggleTheme (p : Page) : Page :=
  let current := getCurrentTheme p in
  let next :=
    if String.eqb current "light" then "dark"
    else if String.eqb current "dark" then "system"
    else "light" in
  setTheme next p.

(** The part of [init()] that sets the theme. *)
Definition init (p : Page) : Page :=
  let theme := getCurrentTheme p in
  setTheme theme p.

End ThemeManager.

Module Deadline.




End Deadline.

Module PortPage.

Import IsCsctStatus.
Local Open Scope string_scope.

(** What [testTcpConnection()] resolves to (the fields the cycle
    reads). *)
Record TestResult : Type := mkTestResult
  { success : bool;
    latency : option Z;
    message : string }.

(** [getStoredStatus()] of these versions: their [getDefaultStatus()]
    has the incident fields. *)
Definition getStoredStatus (st : LocalStorage) : Completion Ledger :=
  try_catch
    (bind (getItem st) (fun stored =>
       match stored with
       | Some raw =>
           if truthyText raw then JSON_parse raw
           else Normal PingCsct.defaultStatus
       | None => Normal PingCsct.defaultStatus
       end))
    (fun _ => Normal PingCsct.defaultStatus).

(** [error.message || 'connection failed']. *)
Definition orConnectionFailed (text : string) : string :=
  match text with
  | EmptyString => "connection failed"
  | _ => text
  end.

(** One run of [checkServerStatus()] once [testTcpConnection()] has
    resolved to [result]: the ledger saved and shown, and the storage
    after the run.  [clock] is the reading of [Date.now()] inside
    [computeDurations]. *)
Definition checkServerStatus (clock : Z) (st : LocalStorage) (now : Z)
           (result : TestResult) : Completion (Ledger * LocalStorage) :=
  bind (getStoredStatus st) (fun prevStatus =>
    if success result then
      let isOnline := true in
      let newStatus :=
        PingCsct.computeDurations clock prevStatus now isOnline in
      let newStatus := set_latency (latency result) newStatus in
      let newStatus :=
        set_portTest (Some {| port := 22; succeeded := true |}) newStatus in
      Normal (newStatus, saveStatus st newStatus)
    else
      (* throw new Error('Port 22 test failed: ' + result.message) *)
      let error_message :=
        String.append "Port 22 test failed: " (message result) in
      let isOnline := false in
      let newStatus :=
        PingCsct.computeDurations clock prevStatus now isOnline in
      let newStatus := set_latency None newStatus in
      let newStatus :=
        set_error (Some (orConnectionFailed error_message)) newStatus in
      let newStatus :=
        set_portTest (Some {| port := 22; succeeded := false |}) newStatus in
      Normal (newStatus, saveStatus st newStatus)).

(** [testTcpConnection()] of part_001: a simulated success whose latency
    is drawn with [Math.random()], here [random]. *)
Definition testTcpConnection_simulated (random : Number) : TestResult :=
  let latency :=
    (Qfloor (this random * inject_Z (3214 - 127 + 1))%Q + 127)%Z in
  {| success := true;
     latency := Some latency;
     message := "SSH port open (simulated)" |}.






End PortPage.

(** *** Notions for runs of checks *)






(** Every incident the checks [cs] record when run from [s], the most
    recent first. *)
Fixpoint recorded (s : Ledger) (cs : list Tick) : list Incident :=
  match cs with
  | [] => []
  | c :: rest =>
      recorded (applyTick s c) rest ++
      match recoveryStart s (timeOf c) (onlineAt c) with
      | Some t => [recoveryIncident (clockAt c) t (timeOf c)]
      | None => []
      end
  end.

(** The pages [setTheme] leaves for each of the three themes. *)
Definition lightPage : ThemeManager.Page :=
  {| ThemeManager.stored := Some "light"%string;
     ThemeManager.dataTheme := Some "light"%string |}.
Definition darkPage : ThemeManager.Page :=
  {| ThemeManager.stored := Some "dark"%string;
     ThemeManager.dataTheme := Some "dark"%string |}.
Definition systemPage : ThemeManager.Page :=
  {| ThemeManager.stored := Some "system"%string;
     ThemeManager.dataTheme := None |}.

(** *** The run of the specification's scenarios *)

Module Scenario.

Definition T0 : Z := 1700000000000.

Definition s1 : Ledger := computeDurations (T0 + 1) defaultStatus T0 true.
Definition s2 : Ledger :=
  computeDurations (T0 + 60001) s1 (T0 + 60000) true.
Definition s3 : Ledger :=
  computeDurations (T0 + 120001) s2 (T0 + 120000) false.
Definition s4 : Ledger :=
  computeDurations (T0 + 180001) s3 (T0 + 180000) true.

End Scenario.



(* ================================================================== *)
(** ** Facts about the JavaScript primitives *)

Section NumberFacts.

Local Open Scope Qc_scope.

Lemma Qc_zero_this : (0%Qc : Q) == 0%Q.
Proof. reflexivity. Qed.

Lemma div1000_this (ms : Z) : (div1000 ms : Q) == (ms # 1000)%Q.
Proof. unfold div1000, Q2Qc. cbn [this]. apply Qred_correct. Qed.

Lemma orZero_id (x : Number) : orZero x = x.
Proof.
  unfold orZero, eqb.
  destruct (Qeq_bool _ _) eqn:E; [|reflexivity].
  apply Qeq_bool_iff in E. symmetry. now apply Qc_is_canon.
Qed.

Lemma leb_le (a b : Number) : leb a b = true <-> a <= b.
Proof. unfold leb, Qcle. apply Qle_bool_iff. Qed.

Lemma gtb_lt (a b : Number) : gtb a b = true <-> b < a.
Proof.
  unfold gtb, Qclt. rewrite negb_true_iff.
  split; intros H.
  - apply Qnot_le_lt. intros L. apply Qle_bool_iff in L. congruence.
  - destruct (Qle_bool a b) eqn:E; [|reflexivity].
    apply Qle_bool_iff in E. exfalso. exact (Qlt_not_le _ _ H E).
Qed.

Lemma Math_max_0_nonneg (x : Number) : 0 <= Math_max 0 x.
Proof.
  unfold Math_max. destruct (leb 0 x) eqn:E.
  - now apply leb_le.
  - apply Qcle_refl.
Qed.

Lemma div1000_pos (ms : Z) : 0 < div1000 ms <-> (0 < ms)%Z.
Proof.
  unfold Qclt. rewrite div1000_this.
  unfold Qlt. simpl. lia.
Qed.

Lemma div1000_nonneg (ms : Z) : 0 <= div1000 ms <-> (0 <= ms)%Z.
Proof.
  unfold Qcle. rewrite div1000_this.
  unfold Qle. simpl. lia.
Qed.

Lemma div1000_0 : div1000 0 = 0.
Proof. apply Qc_is_canon. rewrite div1000_this. reflexivity. Qed.

(** [Math.max(0, ms / 1000)] by the sign of [ms]. *)
Lemma Math_max_div1000 (ms : Z) :
  Math_max 0 (div1000 ms) = if (0 <? ms)%Z then div1000 ms else 0.
Proof.
  unfold Math_max. destruct (leb 0 (div1000 ms)) eqn:E.
  - apply leb_le in E. apply (proj1 (div1000_nonneg ms)) in E.
    destruct (0 <? ms)%Z eqn:P; [reflexivity|].
    apply Z.ltb_ge in P. assert (ms = 0%Z) by lia. subst.
    apply div1000_0.
  - destruct (0 <? ms)%Z eqn:P; [|reflexivity].
    apply Z.ltb_lt in P.
    assert (leb 0 (div1000 ms) = true)
      by (apply leb_le; apply (proj2 (div1000_nonneg ms)); lia).
    congruence.
Qed.

Lemma gtb_max_div1000 (ms : Z) :
  gtb (Math_max 0 (div1000 ms)) 0 = (0 <? ms)%Z.
Proof.
  rewrite Math_max_div1000.
  destruct (0 <? ms)%Z eqn:P.
  - apply gtb_lt. apply (proj2 (div1000_pos ms)). now apply Z.ltb_lt.
  - reflexivity.
Qed.

(** [Math.round(ms / 1000)] in integer arithmetic. *)
Lemma Math_round_div1000 (ms : Z) :
  Math_round (div1000 ms) = ((ms + 500) / 1000)%Z.
Proof.
  unfold Math_round.
  assert (E : (this (div1000 ms) + (1 # 2) == (ms + 500) # 1000)%Q).
  { rewrite div1000_this. unfold Qeq, Qplus. cbn [Qnum Qden]. lia. }
  rewrite (Qfloor_comp _ _ E). reflexivity.
Qed.

Lemma Qcle_plus_nonneg (x d : Number) : 0 <= d -> x <= x + d.
Proof.
  intros H. rewrite <- (Qcplus_0_r x) at 1.
  apply Qcplus_le_compat; [apply Qcle_refl | exact H].
Qed.

Lemma orZeroZ_Some (n : Z) : orZeroZ (Some n) = n.
Proof. unfold orZeroZ. destruct (n =? 0)%Z eqn:E; [|reflexivity].
       apply Z.eqb_eq in E. now subst. Qed.

End NumberFacts.

(* ================================================================== *)
(** ** The result of [computeDurations], field by field *)

Module Fields.

Import PingCsct.
Local Open Scope Qc_scope.

Lemma recoveryStart_iff prev now isOnline t :
  recoveryStart prev now isOnline = Some t <->
  lastStatus prev = Offline /\ isOnline = true /\
  lastStatusChange prev = Some (Iso t) /\ (t < now)%Z.
Proof.
  unfold recoveryStart.
  destruct (lastStatus prev), isOnline, (lastStatusChange prev) as [[u|s]|];
    try (split; [discriminate | intros (? & ? & ? & ?); discriminate]).
  destruct (u <? now)%Z eqn:E.
  - apply Z.ltb_lt in E. split.
    + intros [= <-]. auto.
    + intros (_ & _ & [= <-] & _). reflexivity.
  - apply Z.ltb_ge in E. split; [discriminate|].
    intros (_ & _ & [= <-] & ?). lia.
Qed.

Lemma recoveryStart_None_iff prev now isOnline :
  recoveryStart prev now isOnline = None <->
  ~ (lastStatus prev = Offline /\ isOnline = true /\
     exists t, lastStatusChange prev = Some (Iso t) /\ (t < now)%Z).
Proof.
  split.
  - intros E (Hs & Ho & t & Hc & Ht).
    assert (recoveryStart prev now isOnline = Some t)
      by (apply recoveryStart_iff; auto).
    congruence.
  - intros N. destruct (recoveryStart prev now isOnline) as [t|] eqn:E;
      [|reflexivity].
    apply recoveryStart_iff in E. exfalso. apply N.
    destruct E as (? & ? & ? & ?). eauto.
Qed.

Ltac simp_ledger :=
  cbn -[Qcplus Math_max Math_round div1000 gtb orZero orZeroZ Z.sub Z.add
        Z.ltb deltaSeconds].

(** Case analysis over the branches of [computeDurations]. *)
Ltac by_cases prev isOnline :=
  let ls := fresh "ls" in
  let lsc := fresh "lsc" in
  destruct prev as [? ls lsc ? ? ? ? ? ? ? ? ?];
  unfold computeDurations, downtimeDuration, newStatus, recoveryStart;
  destruct ls, isOnline, lsc as [[?u|?s]|];
  simp_ledger;
  rewrite ?gtb_max_div1000, ?orZero_id;
  repeat match goal with
    | |- context [(0 <? ?b - ?a)%Z] =>
        replace (0 <? b - a)%Z with (a <? b)%Z
          by (destruct (a <? b)%Z eqn:?E;
              [apply Z.ltb_lt in E; symmetry; apply Z.ltb_lt; lia
              |apply Z.ltb_ge in E; symmetry; apply Z.ltb_ge; lia])
    end;
  try match goal with
    | |- context [(?a <? ?b)%Z] => destruct (a <? b)%Z eqn:?
    end;
  simp_ledger.

Lemma lastStatus_after clock prev now isOnline :
  lastStatus (computeDurations clock prev now isOnline) = newStatus isOnline.
Proof. by_cases prev isOnline; reflexivity. Qed.

Lemma lastChecked_after clock prev now isOnline :
  lastChecked (computeDurations clock prev now isOnline) = Some (Iso now).
Proof. by_cases prev isOnline; reflexivity. Qed.

Lemma lastOnline_after clock prev now isOnline :
  lastOnline (computeDurations clock prev now isOnline) =
  if isOnline then Some (Iso now) else lastOnline prev.
Proof. by_cases prev isOnline; reflexivity. Qed.

Lemma lastStatusChange_after clock prev now isOnline :
  lastStatusChange (computeDurations clock prev now isOnline) =
  if Status_eqb (newStatus isOnline) (lastStatus prev)
  then lastStatusChange prev else Some (Iso now).
Proof. by_cases prev isOnline; reflexivity. Qed.

Lemma currentStreakSeconds_after clock prev now isOnline :
  currentStreakSeconds (computeDurations clock prev now isOnline) =
  if Status_eqb (newStatus isOnline) (lastStatus prev)
  then currentStreakSeconds prev + deltaSeconds prev now else 0.
Proof. by_cases prev isOnline; reflexivity. Qed.

Lemma totalUpSeconds_after clock prev now isOnline :
  totalUpSeconds (computeDurations clock prev now isOnline) =
  match lastStatus prev with
  | Online => totalUpSeconds prev + deltaSeconds prev now
  | _ => totalUpSeconds prev
  end.
Proof. by_cases prev isOnline; reflexivity. Qed.

Lemma totalDownSeconds_after clock prev now isOnline :
  totalDownSeconds (computeDurations clock prev now isOnline) =
  match lastStatus prev with
  | Offline => totalDownSeconds prev + deltaSeconds prev now
  | _ => totalDownSeconds prev
  end.
Proof. by_cases prev isOnline; reflexivity. Qed.

Lemma downtimeIncidents_after clock prev now isOnline :
  downtimeIncidents (computeDurations clock prev now isOnline) =
  Some match recoveryStart prev now isOnline with
       | Some t =>
           recoveryIncident clock t now
             :: firstn 9 (orEmpty (downtimeIncidents prev))
       | None => orEmpty (downtimeIncidents prev)
       end.
Proof.
  by_cases prev isOnline; try reflexivity.
  unfold recoveryIncident. rewrite Math_max_div1000.
  replace (0 <? now - u)%Z with true by (symmetry; apply Z.ltb_lt; lia).
  reflexivity.
Qed.

Lemma totalOutages_after clock prev now isOnline :
  totalOutages (computeDurations clock prev now isOnline) =
  Some match recoveryStart prev now isOnline with
       | Some _ => (orZeroZ (totalOutages prev) + 1)%Z
       | None => orZeroZ (totalOutages prev)
       end.
Proof. by_cases prev isOnline; rewrite ?orZeroZ_Some; reflexivity. Qed.

Lemma latency_after clock prev now isOnline :
  latency (computeDurations clock prev now isOnline) = latency prev.
Proof. by_cases prev isOnline; reflexivity. Qed.

Lemma error_after clock prev now isOnline :
  error (computeDurations clock prev now isOnline) = error prev.
Proof. by_cases prev isOnline; reflexivity. Qed.

Lemma portTest_after clock prev now isOnline :
  portTest (computeDurations clock prev now isOnline) = portTest prev.
Proof. by_cases prev isOnline; reflexivity. Qed.

End Fields.

Import PingCsct Fields.

(** Two ledgers are equal when all their fields are. *)
Lemma Ledger_ext (a b : Ledger) :
  lastOnline a = lastOnline b ->
  lastStatus a = lastStatus b ->
  lastStatusChange a = lastStatusChange b ->
  currentStreakSeconds a = currentStreakSeconds b ->
  totalUpSeconds a = totalUpSeconds b ->
  totalDownSeconds a = totalDownSeconds b ->
  lastChecked a = lastChecked b ->
  downtimeIncidents a = downtimeIncidents b ->
  totalOutages a = totalOutages b ->
  latency a = latency b ->
  error a = error b ->
  portTest a = portTest b ->
  a = b.
Proof.
  destruct a, b; cbn; intros; subst; reflexivity.
Qed.

Lemma Status_eqb_eq (a b : Status) : Status_eqb a b = true <-> a = b.
Proof. destruct a, b; cbn; split; congruence. Qed.

Lemma Status_eqb_refl (a : Status) : Status_eqb a a = true.
Proof. now apply Status_eqb_eq. Qed.

Lemma Status_eqb_neq (a b : Status) : Status_eqb a b = false <-> a <> b.
Proof. destruct a, b; cbn; split; congruence. Qed.

Section DeltaFacts.

Local Open Scope Qc_scope.

(** [deltaSeconds] by cases on the previous check. *)
Lemma deltaSeconds_cases prev now :
  deltaSeconds prev now =
  match lastChecked prev with
  | Some (Iso t) => if (t <? now)%Z then div1000 (now - t) else 0
  | _ => 0
  end.
Proof.
  unfold deltaSeconds.
  destruct (lastChecked prev) as [[t|s]|]; cbn [getTime]; try reflexivity.
  rewrite Math_max_div1000.
  destruct (t <? now)%Z eqn:E.
  - apply Z.ltb_lt in E.
    replace (0 <? now - t)%Z with true by (symmetry; apply Z.ltb_lt; lia).
    reflexivity.
  - apply Z.ltb_ge in E.
    replace (0 <? now - t)%Z with false by (symmetry; apply Z.ltb_ge; lia).
    reflexivity.
Qed.

Lemma deltaSeconds_nonneg prev now : 0 <= deltaSeconds prev now.
Proof.
  unfold deltaSeconds.
  destruct (lastChecked prev) as [s|]; [|apply Qcle_refl].
  destruct (getTime s); [apply Math_max_0_nonneg | apply Qcle_refl].
Qed.

(** A check made at the very time of the previous one has no delta. *)
Lemma deltaSeconds_same_time prev now :
  lastChecked prev = Some (Iso now) -> deltaSeconds prev now = 0.
Proof.
  intros H. rewrite deltaSeconds_cases, H, Z.ltb_irrefl. reflexivity.
Qed.

Lemma recoveryStart_same_status prev now isOnline :
  lastStatus prev = newStatus isOnline ->
  recoveryStart prev now isOnline = None.
Proof.
  unfold recoveryStart, newStatus. intros ->. now destruct isOnline.
Qed.

End DeltaFacts.

(* ================================================================== *)
(** ** Incident recording *)

(** C1. An incident is recorded (prepended to the retained list, with
    [totalOutages] incremented by one) if and only if the previous status
    is offline, the observation is online, and [prev.lastStatusChange] is
    a date strictly before [now].  The incident then starts at
    [prev.lastStatusChange], ends at [now] and lasts the rounded number of
    seconds between them; in every other case the list and the counter
    keep their values.  No assumption relating [now] to
    [prev.lastChecked] is needed. *)
Theorem incident_iff_recovery (clock : Z) (prev : Ledger) (now : Z)
        (isOnline : bool) :
  let next := computeDurations clock prev now isOnline in
  let old := orEmpty (downtimeIncidents prev) in
  let count := orZeroZ (totalOutages prev) in
  let recovery :=
    lastStatus prev = Offline /\ isOnline = true /\
    exists t, lastStatusChange prev = Some (Iso t) /\ (t < now)%Z in
  let recorded :=
    exists inc, downtimeIncidents next = Some (inc :: firstn 9 old) /\
                totalOutages next = Some (count + 1)%Z in
  (recorded <-> recovery) /\
  (forall t, lastStatus prev = Offline -> isOnline = true ->
             lastStatusChange prev = Some (Iso t) -> (t < now)%Z ->
     downtimeIncidents next =
       Some ({| startTime := Iso t;
                endTime := Iso now;
                duration := Math_round (div1000 (now - t));
                id := clock |} :: firstn 9 old) /\
     totalOutages next = Some (count + 1)%Z) /\
  (~ recovery ->
     downtimeIncidents next = Some old /\ totalOutages next = Some count).
Proof.
  cbv zeta.
  rewrite downtimeIncidents_after, totalOutages_after.
  destruct (recoveryStart prev now isOnline) as [t|] eqn:E.
  - pose proof (proj1 (recoveryStart_iff _ _ _ _) E) as (Hs & Ho & Hc & Ht).
    split; [split|split].
    + intros _. eauto.
    + intros _. eexists. split; reflexivity.
    + intros u _ _ Hu _. rewrite Hc in Hu. injection Hu as <-.
      split; reflexivity.
    + intros N. exfalso. apply N. eauto.
  - pose proof (proj1 (recoveryStart_None_iff _ _ _) E) as N.
    split; [split|split].
    + intros (inc & _ & Hn). injection Hn as Hn. lia.
    + intros R. exfalso. apply N. exact R.
    + intros u Hs Ho Hu Ht. exfalso. apply N. eauto.
    + intros _. split; reflexivity.
Qed.

(* ================================================================== *)
(** ** Streak and status change *)

(** The ledger [offlineSinceZero] is what a first, failed check at time
    0 produces. *)
Lemma offlineSinceZero_reached clock :
  computeDurations clock defaultStatus 0 false = offlineSinceZero.
Proof. reflexivity. Qed.

(** C5, as stated, fails: a streak of zero does not tell a status change.
    Repeating the failed check at time 0 changes no status and leaves the
    streak at zero. *)
Lemma zero_streak_without_change :
  newStatus false = lastStatus offlineSinceZero /\
  currentStreakSeconds (computeDurations 1 offlineSinceZero 0 false) = 0%Qc /\
  ~ (currentStreakSeconds (computeDurations 1 offlineSinceZero 0 false) = 0%Qc
     <-> newStatus false <> lastStatus offlineSinceZero).
Proof.
  assert (Z : currentStreakSeconds (computeDurations 1 offlineSinceZero 0 false)
              = 0%Qc).
  { rewrite currentStreakSeconds_after. cbn.
    apply Qc_is_canon. reflexivity. }
  split; [reflexivity|]. split; [exact Z|].
  intros [H _]. apply (H Z). reflexivity.
Qed.

(** C5, amended.  On a status change (the status derived from the
    observation differs from [prev.lastStatus]) the streak is reset to
    zero and [lastStatusChange] becomes [now]; otherwise the streak is the
    previous one plus the delta, which is not negative, so it does not
    decrease, and [lastStatusChange] keeps its value.  A streak of zero
    in the result therefore means a status change or a sum that is zero,
    and a changed [lastStatusChange] means a status change. *)
Theorem streak_resets_on_change (clock : Z) (prev : Ledger) (now : Z)
        (isOnline : bool) :
  let next := computeDurations clock prev now isOnline in
  let delta := deltaSeconds prev now in
  (newStatus isOnline <> lastStatus prev ->
     currentStreakSeconds next = 0%Qc /\
     lastStatusChange next = Some (Iso now)) /\
  (newStatus isOnline = lastStatus prev ->
     currentStreakSeconds next = (currentStreakSeconds prev + delta)%Qc /\
     (0 <= delta)%Qc /\
     (currentStreakSeconds prev <= currentStreakSeconds next)%Qc /\
     lastStatusChange next = lastStatusChange prev) /\
  (currentStreakSeconds next = 0%Qc ->
     newStatus isOnline <> lastStatus prev \/
     (currentStreakSeconds prev + delta)%Qc = 0%Qc) /\
  (lastStatusChange next <> lastStatusChange prev ->
     newStatus isOnline <> lastStatus prev).
Proof.
  cbv zeta.
  rewrite currentStreakSeconds_after, lastStatusChange_after.
  destruct (Status_eqb (newStatus isOnline) (lastStatus prev)) eqn:E.
  - apply Status_eqb_eq in E. repeat split; try congruence.
    + apply deltaSeconds_nonneg.
    + apply Qcle_plus_nonneg, deltaSeconds_nonneg.
    + intros Z. now right.
  - apply Status_eqb_neq in E. repeat split; try congruence; tauto.
Qed.

(* ================================================================== *)
(** ** Status after a check *)

(** C10. The ledger a check returns is online or offline, never unknown;
    so a further check on it always takes one of the two accumulating
    branches: the delta goes to [totalUpSeconds] or to
    [totalDownSeconds]. *)
Theorem status_known_after_check (clock : Z) (prev : Ledger) (now : Z)
        (isOnline : bool) :
  let next := computeDurations clock prev now isOnline in
  lastStatus next = (if isOnline then Online else Offline) /\
  lastStatus next <> Unknown /\
  forall clock' now' isOnline',
    let next' := computeDurations clock' next now' isOnline' in
    (if isOnline
     then totalUpSeconds next' = totalUpSeconds next + deltaSeconds next now'
          /\ totalDownSeconds next' = totalDownSeconds next
     else totalDownSeconds next' =
            totalDownSeconds next + deltaSeconds next now'
          /\ totalUpSeconds next' = totalUpSeconds next)%Qc.
Proof.
  cbv zeta. split; [|split].
  - apply lastStatus_after.
  - rewrite lastStatus_after. destruct isOnline; discriminate.
  - intros clock' now' isOnline'.
    rewrite totalUpSeconds_after, totalDownSeconds_after, lastStatus_after.
    destruct isOnline; cbn; split; reflexivity.
Qed.

(* ================================================================== *)
(** ** A repeated check *)

(** C6. Repeating a check with the same [now] and the same observation
    on the ledger the first one returned finds a zero delta and returns
    that ledger again, field for field, whatever the clock reads. *)
Theorem repeated_check_is_noop (clock clock' : Z) (prev : Ledger) (now : Z)
        (isOnline : bool) :
  let L1 := computeDurations clock prev now isOnline in
  let L2 := computeDurations clock' L1 now isOnline in
  deltaSeconds L1 now = 0%Qc /\ L2 = L1.
Proof.
  cbv zeta.
  set (L1 := computeDurations clock prev now isOnline).
  assert (Hc : lastChecked L1 = Some (Iso now)) by apply lastChecked_after.
  assert (Hs : lastStatus L1 = newStatus isOnline) by apply lastStatus_after.
  assert (Hd : deltaSeconds L1 now = 0%Qc)
    by (now apply deltaSeconds_same_time).
  split; [exact Hd|].
  apply Ledger_ext.
  - rewrite lastOnline_after. destruct isOnline; [|reflexivity].
    unfold L1. now rewrite lastOnline_after.
  - now rewrite lastStatus_after.
  - now rewrite lastStatusChange_after, Hs, Status_eqb_refl.
  - rewrite currentStreakSeconds_after, Hs, Status_eqb_refl, Hd.
    apply Qcplus_0_r.
  - rewrite totalUpSeconds_after, Hd, Qcplus_0_r.
    now destruct (lastStatus L1).
  - rewrite totalDownSeconds_after, Hd, Qcplus_0_r.
    now destruct (lastStatus L1).
  - now rewrite lastChecked_after.
  - rewrite downtimeIncidents_after, (recoveryStart_same_status _ _ _ Hs).
    unfold L1. now rewrite downtimeIncidents_after.
  - rewrite totalOutages_after, (recoveryStart_same_status _ _ _ Hs).
    unfold L1. rewrite totalOutages_after. now rewrite orZeroZ_Some.
  - apply latency_after.
  - apply error_after.
  - apply portTest_after.
Qed.

(* ================================================================== *)
(** ** Clamping *)

(** C7. The delta of a check is [(now - lastChecked) / 1000] when
    [prev.lastChecked] is a date before [now] and zero otherwise (no
    previous check, an unreadable one, or a timestamp that is not later);
    it is never negative, so neither total decreases and the streak is
    either reset or does not decrease.  A first check, on the default
    ledger, has a zero delta, leaves both totals at zero and records no
    incident.  [computeDurations] is a total function of its arguments:
    none of its steps can throw on a ledger of this type. *)
Theorem delta_clamped (clock : Z) (prev : Ledger) (now : Z)
        (isOnline : bool) :
  let next := computeDurations clock prev now isOnline in
  let first := computeDurations clock defaultStatus now isOnline in
  (deltaSeconds prev now =
     match lastChecked prev with
     | Some (Iso t) => if (t <? now)%Z then div1000 (now - t) else 0
     | _ => 0
     end /\
   0 <= deltaSeconds prev now /\
   totalUpSeconds prev <= totalUpSeconds next /\
   totalDownSeconds prev <= totalDownSeconds next /\
   (currentStreakSeconds next = 0 \/
    currentStreakSeconds prev <= currentStreakSeconds next) /\
   deltaSeconds defaultStatus now = 0 /\
   totalUpSeconds first = 0 /\
   totalDownSeconds first = 0 /\
   currentStreakSeconds first = 0 /\
   downtimeIncidents first = Some [] /\
   totalOutages first = Some 0%Z)%Qc.
Proof.
  cbv zeta.
  pose proof (deltaSeconds_nonneg prev now) as Hd.
  split; [apply deltaSeconds_cases|].
  split; [exact Hd|].
  split; [|split; [|split]].
  - rewrite totalUpSeconds_after.
    destruct (lastStatus prev);
      first [apply Qcle_refl | now apply Qcle_plus_nonneg].
  - rewrite totalDownSeconds_after.
    destruct (lastStatus prev);
      first [apply Qcle_refl | now apply Qcle_plus_nonneg].
  - rewrite currentStreakSeconds_after.
    destruct (Status_eqb _ _); [right | left; reflexivity].
    now apply Qcle_plus_nonneg.
  - rewrite totalUpSeconds_after, totalDownSeconds_after,
      currentStreakSeconds_after, downtimeIncidents_after, totalOutages_after.
    destruct isOnline; cbn; repeat split; reflexivity.
Qed.

(* ================================================================== *)
(** ** Dependence on the clock *)

(** C8, as the code has it.  Two calls with the same arguments return the
    same ledger unless the call records an incident; when it does, the
    two ledgers differ at most in the [id] of that incident, which is the
    reading of [Date.now()] during the call. *)
Theorem clock_only_labels_incident (clock clock' : Z) (prev : Ledger)
        (now : Z) (isOnline : bool) :
  let next := computeDurations clock prev now isOnline in
  let next' := computeDurations clock' prev now isOnline in
  match recoveryStart prev now isOnline with
  | Some t =>
      next' = withNewestId clock' next /\
      downtimeIncidents next =
        Some (recoveryIncident clock t now
                :: firstn 9 (orEmpty (downtimeIncidents prev)))
  | None => next' = next
  end.
Proof.
  cbv zeta.
  destruct (recoveryStart prev now isOnline) as [t|] eqn:E.
  - split.
    + unfold withNewestId. rewrite downtimeIncidents_after, E.
      apply Ledger_ext; unfold set_downtimeIncidents;
        cbn [lastOnline lastStatus lastStatusChange currentStreakSeconds
             totalUpSeconds totalDownSeconds lastChecked downtimeIncidents
             totalOutages latency error portTest];
        rewrite ?lastOnline_after, ?lastStatus_after, ?lastStatusChange_after,
          ?currentStreakSeconds_after, ?totalUpSeconds_after,
          ?totalDownSeconds_after, ?lastChecked_after, ?totalOutages_after,
          ?latency_after, ?error_after, ?portTest_after,
          ?downtimeIncidents_after, ?E;
        reflexivity.
    + rewrite downtimeIncidents_after, E. reflexivity.
  - apply Ledger_ext;
      rewrite ?lastOnline_after, ?lastStatus_after, ?lastStatusChange_after,
        ?currentStreakSeconds_after, ?totalUpSeconds_after,
        ?totalDownSeconds_after, ?lastChecked_after, ?totalOutages_after,
        ?latency_after, ?error_after, ?portTest_after,
        ?downtimeIncidents_after, ?E;
      reflexivity.
Qed.

(** C8, as stated, fails: the same previous ledger, time and observation
    give two different ledgers when [Date.now()] reads 60001 during one
    call and 60002 during the other. *)
Lemma same_arguments_different_ledgers :
  downtimeIncidents (computeDurations 60001 offlineSinceZero 60000 true) =
    Some [ {| startTime := Iso 0; endTime := Iso 60000;
              duration := 60; id := 60001 |} ] /\
  downtimeIncidents (computeDurations 60002 offlineSinceZero 60000 true) =
    Some [ {| startTime := Iso 0; endTime := Iso 60000;
              duration := 60; id := 60002 |} ] /\
  computeDurations 60001 offlineSinceZero 60000 true <>
  computeDurations 60002 offlineSinceZero 60000 true.
Proof.
  assert (A : forall c,
             downtimeIncidents (computeDurations c offlineSinceZero 60000 true)
             = Some [ {| startTime := Iso 0; endTime := Iso 60000;
                         duration := 60; id := c |} ]).
  { intros c. rewrite downtimeIncidents_after. reflexivity. }
  split; [apply A | split; [apply A|]].
  intros H. apply (f_equal downtimeIncidents) in H.
  rewrite !A in H. discriminate.
Qed.

(* ================================================================== *)
(** ** Sequences of checks *)

Section Runs.

Local Open Scope Qc_scope.







End Runs.


(* ================================================================== *)
(** ** The retained incidents *)




(* ================================================================== *)
(** ** Loading the ledger *)

(** C9. Loading never throws.  [readStatusFile] returns the ledger the
    file holds when its text parses and the default ledger when the file
    is missing or its text is rejected; [getStoredStatus] returns the
    stored ledger when the item parses and its default ledger when the
    storage cannot be read, holds nothing, or holds text that is
    rejected.  Both defaults have an unknown status, null timestamps,
    zero totals, no retained incident and no counted outage. *)
Theorem load_never_throws (f : File) (st : IsCsctStatus.LocalStorage) :
  readStatusFile f =
    Normal match f with
           | Some (Serialized status) => status
           | _ => defaultStatus
           end /\
  IsCsctStatus.getStoredStatus st =
    Normal match st with
           | IsCsctStatus.Holds (Some (Serialized status)) => status
           | _ => IsCsctStatus.getDefaultStatus
           end /\
  (forall d, d = defaultStatus \/ d = IsCsctStatus.getDefaultStatus ->
     lastStatus d = Unknown /\
     lastOnline d = None /\ lastStatusChange d = None /\
     lastChecked d = None /\
     currentStreakSeconds d = 0%Qc /\
     totalUpSeconds d = 0%Qc /\ totalDownSeconds d = 0%Qc /\
     retained d = [] /\ outages d = 0%Z).
Proof.
  split; [|split].
  - destruct f as [[status|raw]|]; reflexivity.
  - destruct st as [|[[status|[|a raw]]|]]; reflexivity.
  - intros d [-> | ->]; repeat split; reflexivity.
Qed.

(* ================================================================== *)
(** ** Latency and error across cycles *)

Section Cycles.

Import IsCsctStatus.

(** In the browser cycle a resolved fetch stores the latency and leaves
    the error of the previous ledger in place; a rejected fetch clears
    the latency and stores the error text. *)
Lemma checkServerStatus_fields st now r :
  exists prev next,
    getStoredStatus st = Normal prev /\
    checkServerStatus st now r = Normal (next, saveStatus st next) /\
    lastChecked next = Some (Iso now) /\
    match r with
    | Resolved ms =>
        lastStatus next = Online /\
        latency next = Some ms /\ error next = error prev
    | Rejected name =>
        lastStatus next = Offline /\
        latency next = None /\
        error next = Some (if String.eqb name "AbortError"
                           then "timeout" else "connection failed")%string
    end.
Proof.
  unfold checkServerStatus.
  destruct (getStoredStatus st) as [prev|e] eqn:E.
  - exists prev. destruct r as [ms|name]; cbn [bind];
      eexists; (split; [reflexivity|]); (split; [reflexivity|]);
      destruct prev as [? [] ? ? ? ? ? ? ? ? ? ?]; cbn; auto.
  - exfalso. destruct st as [|[[status|[|a raw]]|]]; discriminate.
Qed.

(** In the script's cycle a probe without latency leaves the latency of
    the previous ledger in place, and the error text is never stored. *)
Lemma main_fields clock f now obs :
  exists prev next,
    readStatusFile f = Normal prev /\
    main clock f now obs = Normal (next, writeStatusFile next) /\
    lastChecked next = Some (Iso now) /\
    lastStatus next = newStatus (Probe.online obs) /\
    latency next = match Probe.latency obs with
                   | Some ms => Some ms
                   | None => latency prev
                   end /\
    error next = error prev.
Proof.
  unfold main.
  destruct (readStatusFile f) as [prev|e] eqn:E.
  - exists prev. cbn [bind]. eexists.
    split; [reflexivity|]. split; [reflexivity|].
    destruct (Probe.latency obs);
      cbn [set_portTest set_latency lastChecked lastStatus latency error];
      rewrite lastChecked_after, lastStatus_after, ?latency_after,
        error_after; auto.
  - exfalso. destruct f as [[status|raw]|]; discriminate.
Qed.

(** The [computeDurations] of the browser file is the one of the script
    without the incident bookkeeping. *)
Lemma computeDurations_agree clock prev now isOnline :
  IsCsctStatus.computeDurations prev now isOnline =
  set_totalOutages (totalOutages prev)
    (set_downtimeIncidents (downtimeIncidents prev)
       (PingCsct.computeDurations clock prev now isOnline)).
Proof.
  apply Ledger_ext;
    cbn [set_totalOutages set_downtimeIncidents
         lastOnline lastStatus lastStatusChange currentStreakSeconds
         totalUpSeconds totalDownSeconds lastChecked downtimeIncidents
         totalOutages latency error portTest];
    rewrite ?lastOnline_after, ?lastStatus_after, ?lastStatusChange_after,
      ?currentStreakSeconds_after, ?totalUpSeconds_after,
      ?totalDownSeconds_after, ?lastChecked_after, ?latency_after,
      ?error_after, ?portTest_after;
    unfold IsCsctStatus.computeDurations, newStatus;
    destruct prev as [? [] ? ? ? ? ? ? ? ? ? ?], isOnline;
    cbn -[Qcplus deltaSeconds orZero]; rewrite ?orZero_id; reflexivity.
Qed.

End Cycles.

(** C3, on two runs from an empty store.  In the browser, a timed-out
    check followed by a successful one leaves a ledger that is online and
    still carries the error text ["timeout"].  In the script, a successful
    check with latency 12 followed by a timed-out one leaves a ledger that
    is offline, still carries the latency 12, and carries no error text,
    so that the page shows the response ["12ms"] for it.  In both,
    [lastChecked] is the time of the check. *)
Theorem stale_error_and_latency :
  (exists l1 st1 l2 st2,
     IsCsctStatus.checkServerStatus
       (IsCsctStatus.Holds None) 0 (IsCsctStatus.Rejected "AbortError")
       = Normal (l1, st1) /\
     IsCsctStatus.checkServerStatus st1 60000 (IsCsctStatus.Resolved 42)
       = Normal (l2, st2) /\
     lastStatus l1 = Offline /\ error l1 = Some "timeout"%string /\
     lastStatus l2 = Online /\ lastChecked l2 = Some (Iso 60000) /\
     latency l2 = Some 42%Z /\ error l2 = Some "timeout"%string) /\
  (exists l1 f1 l2 f2,
     main 1 None 0
          {| Probe.online := true; Probe.latency := Some 12%Z;
             Probe.error := None |} = Normal (l1, f1) /\
     main 60001 f1 60000
          {| Probe.online := false; Probe.latency := None;
             Probe.error := Some "timeout"%string |} = Normal (l2, f2) /\
     lastStatus l1 = Online /\ latency l1 = Some 12%Z /\
     lastStatus l2 = Offline /\ lastChecked l2 = Some (Iso 60000) /\
     latency l2 = Some 12%Z /\ error l2 = None /\
     IsCsctStatus.latencyText l2 = IsCsctStatus.Ms 12).
Proof.
  split.
  - do 4 eexists.
    split; [reflexivity|]. split; [reflexivity|].
    repeat split; reflexivity.
  - do 4 eexists.
    split; [reflexivity|]. split; [reflexivity|].
    repeat split; reflexivity.
Qed.

(* ================================================================== *)
(** ** The scenarios of the specification *)

Section Scenarios.

Local Open Scope Qc_scope.

Import Scenario.

Ltac evaluate :=
  repeat split;
  first [ reflexivity | apply Qc_is_canon; vm_compute; reflexivity ].

Example scenario_1 :
  lastStatus s1 = Online /\ lastStatusChange s1 = Some (Iso T0) /\
  currentStreakSeconds s1 = 0 /\ totalUpSeconds s1 = 0 /\
  lastOnline s1 = Some (Iso T0) /\ lastChecked s1 = Some (Iso T0) /\
  retained s1 = [].
Proof. evaluate. Qed.

Example scenario_2 :
  lastStatus s2 = Online /\ lastStatusChange s2 = Some (Iso T0) /\
  currentStreakSeconds s2 = Q2Qc 60 /\ totalUpSeconds s2 = Q2Qc 60 /\
  lastChecked s2 = Some (Iso (T0 + 60000)).
Proof. evaluate. Qed.

Example scenario_3 :
  lastStatus s3 = Offline /\ lastStatusChange s3 = Some (Iso (T0 + 120000)) /\
  currentStreakSeconds s3 = 0 /\ totalUpSeconds s3 = Q2Qc 120 /\
  totalDownSeconds s3 = 0 /\ retained s3 = [].
Proof. evaluate. Qed.

Example scenario_4 :
  lastStatus s4 = Online /\ lastStatusChange s4 = Some (Iso (T0 + 180000)) /\
  totalDownSeconds s4 = Q2Qc 60 /\ currentStreakSeconds s4 = 0 /\
  retained s4 = [ {| startTime := Iso (T0 + 120000);
                     endTime := Iso (T0 + 180000);
                     duration := 60;
                     id := T0 + 180001 |} ] /\
  outages s4 = 1%Z.
Proof. evaluate. Qed.

Example scenario_5 :
  deltaSeconds s4 (T0 + 170000) = 0 /\
  totalUpSeconds (computeDurations 0 s4 (T0 + 170000) true) = Q2Qc 120 /\
  totalDownSeconds (computeDurations 0 s4 (T0 + 170000) true) = Q2Qc 60.
Proof. evaluate. Qed.

End Scenarios.

(* ================================================================== *)
(** ** Chronological order along a run *)







Section Elapsed.

Local Open Scope Qc_scope.


Lemma last_cons_default (rest : list Z) : forall u t,
  last (u :: rest) t = last rest u.
Proof.
  induction rest as [|v rest IH]; intros u t; [reflexivity|].
  change (last (u :: v :: rest) t) with (last (v :: rest) t).
  now rewrite (IH v t), (IH v u).
Qed.



End Elapsed.

(* ================================================================== *)
(** ** Durations and relative times as the page shows them *)

Section Floors.

Import Presenter.

Lemma Qfloor_div_pos (x : Q) (p : positive) :
  Qfloor (x / inject_Z (Zpos p))%Q = (Qfloor x / Zpos p)%Z.
Proof.
  destruct x as [a b]. unfold Qdiv, Qinv, Qmult, inject_Z, Qfloor.
  cbn [Qnum Qden]. rewrite Z.mul_1_r.
  rewrite Pos2Z.inj_mul. symmetry. apply Z.div_div; lia.
Qed.

Lemma Qfloor_minus_Z (x : Q) (k : Z) :
  Qfloor (x - inject_Z k)%Q = (Qfloor x - k)%Z.
Proof.
  destruct x as [a b]. unfold Qminus, Qplus, Qopp, inject_Z, Qfloor.
  cbn [Qnum Qden]. rewrite Z.mul_1_r, Pos.mul_1_r.
  replace (a + - k * Z.pos b)%Z with (a + (- k) * Z.pos b)%Z by lia.
  rewrite Z.div_add by lia. lia.
Qed.

Lemma truncate_nonneg (x : Q) : (0 <= x)%Q -> truncate x = Qfloor x.
Proof.
  intros H. unfold truncate.
  destruct (Qle_bool 0 x) eqn:E; [reflexivity|].
  apply Qle_bool_iff in H. congruence.
Qed.

Lemma Qdiv_pos_nonneg (x : Q) (p : positive) :
  (0 <= x)%Q -> (0 <= x / inject_Z (Zpos p))%Q.
Proof.
  intros H. apply Qle_shift_div_l; [reflexivity|]. now rewrite Qmult_0_l.
Qed.

(** The whole seconds of a remainder are the remainder of the whole
    seconds. *)
Lemma Qfloor_remainder (x : Q) (p : positive) :
  (0 <= x)%Q -> Qfloor (remainder x (Zpos p)) = (Qfloor x mod Zpos p)%Z.
Proof.
  intros H. unfold remainder.
  rewrite truncate_nonneg by now apply Qdiv_pos_nonneg.
  rewrite Qfloor_div_pos.
  assert (E : (inject_Z (Z.pos p) * inject_Z (Qfloor x / Z.pos p)
               == inject_Z (Z.pos p * (Qfloor x / Z.pos p)))%Q)
    by (now rewrite inject_Z_mult).
  rewrite (Qfloor_comp _ (x - inject_Z (Z.pos p * (Qfloor x / Z.pos p)))%Q)
    by (now rewrite E).
  rewrite Qfloor_minus_Z. rewrite Z.mod_eq by lia. reflexivity.
Qed.

Lemma remainder_nonneg (x : Q) (p : positive) :
  (0 <= x)%Q -> (0 <= remainder x (Zpos p))%Q.
Proof.
  intros H. unfold remainder.
  rewrite truncate_nonneg by now apply Qdiv_pos_nonneg.
  pose proof (Qfloor_le (x / inject_Z (Z.pos p))) as F.
  assert (P : (0 < inject_Z (Z.pos p))%Q) by reflexivity.
  apply (Qmult_le_l _ _ _ P) in F.
  rewrite Qmult_div_r in F by (intros E; discriminate E).
  apply (Qplus_le_r _ _ (inject_Z (Z.pos p)
                         * inject_Z (Qfloor (x / inject_Z (Z.pos p))))).
  ring_simplify. exact F.
Qed.

(** [formatDuration] in terms of the whole seconds of its argument. *)
Lemma formatDuration_whole (seconds : Number) :
  (0 <= seconds)%Qc ->
  let S := Qfloor seconds in
  formatDuration seconds =
  if (0 <? S / 3600)%Z then HoursMinutes (S / 3600) (S mod 3600 / 60)
  else if (0 <? S mod 3600 / 60)%Z
       then MinutesSeconds (S mod 3600 / 60) (S mod 60)
       else SecondsOnly (S mod 60).
Proof.
  intros H. cbv zeta. unfold formatDuration.
  assert (H' : (0 <= this seconds)%Q) by exact H.
  rewrite (Qfloor_div_pos seconds 3600), (Qfloor_div_pos _ 60),
    !Qfloor_remainder by assumption.
  reflexivity.
Qed.

End Floors.

(** X1. For a duration that is not negative, [formatDuration] shows
    hours and minutes from one hour on, dropping less than a minute;
    below one hour it shows the whole seconds exactly, as minutes and
    seconds or as seconds alone.  Minutes and seconds shown are below
    60. *)
Theorem formatDuration_parts (seconds : Number) :
  (0 <= seconds)%Qc ->
  let S := Qfloor seconds in
  match Presenter.formatDuration seconds with
  | Presenter.HoursMinutes h m =>
      (1 <= h /\ 0 <= m < 60 /\
       h * 3600 + m * 60 <= S < h * 3600 + m * 60 + 60)%Z
  | Presenter.MinutesSeconds m s =>
      (1 <= m < 60 /\ 0 <= s < 60 /\ m * 60 + s = S)%Z
  | Presenter.SecondsOnly s => (0 <= s < 60 /\ s = S)%Z
  | Presenter.NaNSeconds => False
  end.
Proof.
  intros H. cbv zeta. rewrite formatDuration_whole by exact H.
  assert (P : (0 <= Qfloor seconds)%Z).
  { change 0%Z with (Qfloor 0). apply Qfloor_resp_le. exact H. }
  set (S := Qfloor seconds) in *. clearbody S. clear H.
  destruct (0 <? S / 3600)%Z eqn:E1.
  - apply Z.ltb_lt in E1. Z.div_mod_to_equations. lia.
  - apply Z.ltb_ge in E1.
    destruct (0 <? S mod 3600 / 60)%Z eqn:E2.
    + apply Z.ltb_lt in E2. Z.div_mod_to_equations. lia.
    + apply Z.ltb_ge in E2. Z.div_mod_to_equations. lia.
Qed.

Lemma formatDuration_parts_witness :
  (0 <= Q2Qc (7325 # 1))%Qc /\
  match Presenter.formatDuration (Q2Qc (7325 # 1)) with
  | Presenter.HoursMinutes h m =>
      (1 <= h /\ 0 <= m < 60 /\
       h * 3600 + m * 60 <= Qfloor (Q2Qc (7325 # 1))
       < h * 3600 + m * 60 + 60)%Z
  | Presenter.MinutesSeconds m s =>
      (1 <= m < 60 /\ 0 <= s < 60 /\ m * 60 + s = Qfloor (Q2Qc (7325 # 1)))%Z
  | Presenter.SecondsOnly s => (0 <= s < 60 /\ s = Qfloor (Q2Qc (7325 # 1)))%Z
  | Presenter.NaNSeconds => False
  end.
Proof.
  assert (H : (0 <= Q2Qc (7325 # 1))%Qc) by (vm_compute; discriminate).
  exact (conj H (formatDuration_parts H)).
Defined.

(** X2. For a date that is not after [now], [formatRelativeTime] picks
    the unit by the elapsed time (seconds below a minute, minutes below
    an hour, hours below a day, days from there on) and shows the number
    of whole units elapsed. *)
Theorem formatRelativeTime_past (now date : Z) :
  (date <= now)%Z ->
  match Presenter.formatRelativeTime now date with
  | Presenter.SecondsAgo n =>
      (0 <= n < 60 /\ n * 1000 <= now - date < (n + 1) * 1000)%Z
  | Presenter.MinutesAgo n =>
      (1 <= n < 60 /\ n * 60000 <= now - date < (n + 1) * 60000)%Z
  | Presenter.HoursAgo n =>
      (1 <= n < 24 /\ n * 3600000 <= now - date < (n + 1) * 3600000)%Z
  | Presenter.DaysAgo n =>
      (1 <= n /\ n * 86400000 <= now - date < (n + 1) * 86400000)%Z
  end.
Proof.
  intros H. unfold Presenter.formatRelativeTime.
  set (d := (now - date)%Z). assert (P : (0 <= d)%Z) by (unfold d; lia).
  clearbody d. clear H.
  repeat match goal with
         | |- context [(?a <? ?b)%Z] =>
             let E := fresh "E" in
             destruct (a <? b)%Z eqn:E;
             [apply Z.ltb_lt in E | apply Z.ltb_ge in E]
         end;
    Z.div_mod_to_equations; lia.
Qed.

Lemma formatRelativeTime_past_witness :
  (0 <= 90000000)%Z /\
  match Presenter.formatRelativeTime 90000000 0 with
  | Presenter.SecondsAgo n =>
      (0 <= n < 60 /\ n * 1000 <= 90000000 - 0 < (n + 1) * 1000)%Z
  | Presenter.MinutesAgo n =>
      (1 <= n < 60 /\ n * 60000 <= 90000000 - 0 < (n + 1) * 60000)%Z
  | Presenter.HoursAgo n =>
      (1 <= n < 24 /\ n * 3600000 <= 90000000 - 0 < (n + 1) * 3600000)%Z
  | Presenter.DaysAgo n =>
      (1 <= n /\ n * 86400000 <= 90000000 - 0 < (n + 1) * 86400000)%Z
  end.
Proof.
  assert (H : (0 <= 90000000)%Z) by lia.
  exact (conj H (@formatRelativeTime_past 90000000 0 H)).
Defined.

(** X3. A date after [now] is always shown in seconds, as a negative
    number, however far ahead it lies. *)
Theorem formatRelativeTime_future (now date : Z) :
  (now < date)%Z ->
  exists n, Presenter.formatRelativeTime now date = Presenter.SecondsAgo n /\
            (n < 0 /\ n * 1000 <= now - date < (n + 1) * 1000)%Z.
Proof.
  intros H. unfold Presenter.formatRelativeTime.
  set (d := (now - date)%Z). assert (P : (d < 0)%Z) by (unfold d; lia).
  clearbody d. clear H.
  exists (d / 1000)%Z.
  replace (d / 1000 <? 60)%Z with true
    by (symmetry; apply Z.ltb_lt; Z.div_mod_to_equations; lia).
  split; [reflexivity|]. Z.div_mod_to_equations. lia.
Qed.

Lemma formatRelativeTime_future_witness :
  (0 < 172800000)%Z /\
  exists n, Presenter.formatRelativeTime 0 172800000 = Presenter.SecondsAgo n /\
            (n < 0 /\ n * 1000 <= 0 - 172800000 < (n + 1) * 1000)%Z.
Proof.
  assert (H : (0 < 172800000)%Z) by lia.
  exact (conj H (@formatRelativeTime_future 0 172800000 H)).
Defined.


(* ================================================================== *)
(** ** The uptime figure and the summary line *)

Section Canonical.





End Canonical.



Section BrowserCycle.

Import IsCsctStatus Presenter.

(** X6. A first check, on a store that holds no ledger (or cannot be
    read, or holds text that does not parse), never brings up the uptime
    line: both totals are still zero, so the page keeps inviting to begin
    monitoring. *)
Theorem first_check_shows_no_uptime (st : LocalStorage) (now : Z)
        (r : FetchResult) :
  match st with
  | Holds (Some (Serialized _)) => True
  | _ =>
      exists next,
        checkServerStatus st now r = Normal (next, saveStatus st next) /\
        updateUptimeSummary next = BeginMonitoring
  end.
Proof.
  destruct st as [|[[status|[|a raw]]|]]; trivial;
    destruct r as [ms|name]; eexists; (split; [reflexivity|]); reflexivity.
Qed.

(** X7. After a check in the browser the response shown is the latency
    of the fetch in milliseconds when that is not zero, ["< 1s"] when it
    is zero, and after a failed fetch the error text (["timeout"] for an
    abort, ["connection failed"] otherwise), never a latency. *)
Theorem response_text_after_check (st : LocalStorage) (now : Z)
        (r : FetchResult) :
  exists next,
    checkServerStatus st now r = Normal (next, saveStatus st next) /\
    latencyText next =
    match r with
    | Resolved ms => if (ms =? 0)%Z then LessThan1s else Ms ms
    | Rejected name =>
        Message (if String.eqb name "AbortError"
                 then "timeout" else "connection failed")
    end.
Proof.
  destruct (checkServerStatus_fields st now r)
    as (prev & next & _ & Hn & _ & Hr).
  exists next. split; [exact Hn|].
  unfold latencyText. destruct r as [ms|name].
  - destruct Hr as (Hs & Hl & _). rewrite Hl, Hs, orZeroZ_Some.
    now destruct (ms =? 0)%Z.
  - destruct Hr as (Hs & Hl & He). rewrite Hl, Hs, He. cbn.
    now destruct (String.eqb name "AbortError").
Qed.

End BrowserCycle.

(* ================================================================== *)
(** ** The theme preference *)

Section Themes.

Import ThemeManager.
Local Open Scope string_scope.

Lemma toggleTheme_cases (p : Page) :
  (getCurrentTheme p = "light" /\ toggleTheme p = darkPage) \/
  (getCurrentTheme p = "dark" /\ toggleTheme p = systemPage) \/
  (getCurrentTheme p <> "light" /\ getCurrentTheme p <> "dark" /\
   toggleTheme p = lightPage).
Proof.
  unfold toggleTheme.
  destruct (String.eqb (getCurrentTheme p) "light") eqn:E1.
  - apply String.eqb_eq in E1. left. split; [exact E1 | reflexivity].
  - apply String.eqb_neq in E1. right.
    destruct (String.eqb (getCurrentTheme p) "dark") eqn:E2.
    + apply String.eqb_eq in E2. left. split; [exact E2 | reflexivity].
    + apply String.eqb_neq in E2. right. repeat split; auto.
Qed.

Lemma getCurrentTheme_nonempty (p : Page) : getCurrentTheme p <> "".
Proof.
  unfold getCurrentTheme. destruct (stored p) as [[|a t]|]; discriminate.
Qed.

Lemma setTheme_independent (theme : string) (p q : Page) :
  setTheme theme p = setTheme theme q.
Proof.
  unfold setTheme, applyTheme. cbn.
  destruct (String.eqb theme "dark"), (String.eqb theme "light");
    reflexivity.
Qed.

End Themes.

(** X8. [toggleTheme] always leaves one of the three themes stored, with
    the matching attribute: dark after light, system after dark, and
    light after system or after any other stored value.  From the first
    toggle on, the pages cycle with period three. *)
Theorem toggleTheme_cycles (p : ThemeManager.Page) :
  let toggle := ThemeManager.toggleTheme in
  (toggle p = lightPage \/ toggle p = darkPage \/ toggle p = systemPage) /\
  toggle lightPage = darkPage /\
  toggle darkPage = systemPage /\
  toggle systemPage = lightPage /\
  toggle (toggle (toggle (toggle p))) = toggle p.
Proof.
  cbv zeta.
  assert (C : ThemeManager.toggleTheme p = lightPage \/
              ThemeManager.toggleTheme p = darkPage \/
              ThemeManager.toggleTheme p = systemPage).
  { destruct (toggleTheme_cases p) as [[_ H]|[[_ H]|(_ & _ & H)]]; auto. }
  split; [exact C|].
  repeat split; try reflexivity.
  destruct C as [-> | [-> | ->]]; reflexivity.
Qed.

(** X9. What [init] finds stored it stores again: running [init] twice
    is running it once, and [init] after [toggleTheme] (a reload of the
    page) changes nothing, neither the stored theme nor the attribute. *)
Theorem init_restores_theme (p : ThemeManager.Page) :
  ThemeManager.init (ThemeManager.init p) = ThemeManager.init p /\
  ThemeManager.init (ThemeManager.toggleTheme p) = ThemeManager.toggleTheme p /\
  ThemeManager.getCurrentTheme (ThemeManager.init p)
  = ThemeManager.getCurrentTheme p.
Proof.
  assert (G : ThemeManager.getCurrentTheme (ThemeManager.init p)
              = ThemeManager.getCurrentTheme p).
  { pose proof (getCurrentTheme_nonempty p) as N.
    unfold ThemeManager.init, ThemeManager.setTheme, ThemeManager.applyTheme.
    destruct (String.eqb (ThemeManager.getCurrentTheme p) "dark");
      [|destruct (String.eqb (ThemeManager.getCurrentTheme p) "light")];
      unfold ThemeManager.getCurrentTheme at 1; cbn;
      destruct (ThemeManager.getCurrentTheme p); congruence. }
  split; [|split; [|exact G]].
  - unfold ThemeManager.init at 1. rewrite G.
    unfold ThemeManager.init. apply setTheme_independent.
  - destruct (toggleTheme_cases p) as [[_ H]|[[_ H]|(_ & _ & H)]];
      rewrite H; reflexivity.
Qed.

(* ================================================================== *)
(** ** The port test of the later pages *)

Section PortCycle.

Import IsCsctStatus.
Local Open Scope string_scope.

Lemma PortPage_getStoredStatus_normal (st : LocalStorage) :
  exists prev, PortPage.getStoredStatus st = Normal prev.
Proof.
  destruct st as [|[[status|[|a raw]]|]]; eexists; reflexivity.
Qed.

(** The fields of the ledger one run of the port-test cycle saves. *)
Lemma PortPage_checkServerStatus_fields clock st now result :
  exists prev next,
    PortPage.getStoredStatus st = Normal prev /\
    PortPage.checkServerStatus clock st now result
      = Normal (next, saveStatus st next) /\
    lastChecked next = Some (Iso now) /\
    lastStatus next = newStatus (PortPage.success result) /\
    portTest next =
      Some {| port := 22; succeeded := PortPage.success result |} /\
    latency next =
      (if PortPage.success result then PortPage.latency result else None) /\
    error next =
      (if PortPage.success result then error prev
       else Some ("Port 22 test failed: " ++ PortPage.message result)).
Proof.
  destruct (PortPage_getStoredStatus_normal st) as [prev E].
  exists prev. unfold PortPage.checkServerStatus. rewrite E. cbn [bind].
  destruct (PortPage.success result); eexists;
    (split; [reflexivity|]); (split; [reflexivity|]);
    cbn [set_portTest set_latency set_error lastChecked lastStatus
         latency error portTest];
    rewrite lastChecked_after, lastStatus_after, ?error_after;
    repeat split; reflexivity.
Qed.

End PortCycle.

(** X10. The simulated port test always succeeds, with a latency between
    127 and 3214 milliseconds for every value [Math.random()] can
    return, so a check made with it always leaves the ledger online,
    with that latency. *)
Theorem simulated_test_in_range (random : Number) :
  (0 <= random)%Qc -> (random < 1)%Qc ->
  exists ms,
    PortPage.latency (PortPage.testTcpConnection_simulated random) = Some ms /\
    (127 <= ms <= 3214)%Z /\
    forall clock st now,
    exists next,
      PortPage.checkServerStatus clock st now
        (PortPage.testTcpConnection_simulated random)
      = Normal (next, IsCsctStatus.saveStatus st next) /\
      lastStatus next = Online /\ latency next = Some ms.
Proof.
  intros H0 H1.
  assert (R0 : (0 <= this random)%Q) by exact H0.
  assert (R1 : (this random < 1)%Q) by exact H1.
  eexists. split; [reflexivity|]. split.
  - pose proof (Qfloor_le (this random * inject_Z (3214 - 127 + 1))) as F1.
    pose proof (Qlt_floor (this random * inject_Z (3214 - 127 + 1))) as F2.
    set (n := Qfloor (this random * inject_Z (3214 - 127 + 1))) in *.
    clearbody n. rewrite (inject_Z_plus n 1) in F2.
    change (inject_Z (3214 - 127 + 1)) with 3088%Q in *.
    change (inject_Z 1) with 1%Q in F2.
    assert (A : (inject_Z n < 3088)%Q) by lra.
    assert (B : (-1 < inject_Z n)%Q) by lra.
    unfold Qlt, inject_Z in A, B. cbn in A, B. lia.
  - intros clock st now.
    destruct (PortPage_checkServerStatus_fields clock st now
                (PortPage.testTcpConnection_simulated random))
      as (prev & next & _ & Hn & _ & Hs & _ & Hl & _).
    exists next. repeat split; assumption.
Qed.

Lemma simulated_test_in_range_witness :
  (0 <= Q2Qc (1 # 2))%Qc /\ (Q2Qc (1 # 2) < 1)%Qc /\
  exists ms,
    PortPage.latency (PortPage.testTcpConnection_simulated (Q2Qc (1 # 2)))
    = Some ms /\
    (127 <= ms <= 3214)%Z /\
    forall clock st now,
    exists next,
      PortPage.checkServerStatus clock st now
        (PortPage.testTcpConnection_simulated (Q2Qc (1 # 2)))
      = Normal (next, IsCsctStatus.saveStatus st next) /\
      lastStatus next = Online /\ latency next = Some ms.
Proof.
  assert (H0 : (0 <= Q2Qc (1 # 2))%Qc) by (vm_compute; discriminate).
  assert (H1 : (Q2Qc (1 # 2) < 1)%Qc) by (vm_compute; reflexivity).
  exact (conj H0 (conj H1 (simulated_test_in_range H0 H1))).
Defined.



(* ================================================================== *)
(** ** More about runs of checks *)

Section RunInvariants.

Local Open Scope Qc_scope.


Lemma last_nondecreasing times : forall k,
  nondecreasing k times -> (k <= last times k)%Z.
Proof.
  induction times as [|t rest IH]; intros k Hn; [cbn; lia|].
  destruct Hn as [Hk Hn]. rewrite last_cons_default.
  specialize (IH t Hn). lia.
Qed.





End RunInvariants.





Section Downtime.

Local Open Scope Qc_scope.

Lemma outages_after clock s now isOnline :
  outages (computeDurations clock s now isOnline) =
  match recoveryStart s now isOnline with
  | Some _ => (outages s + 1)%Z
  | None => outages s
  end.
Proof.
  unfold outages. rewrite totalOutages_after, orZeroZ_Some. reflexivity.
Qed.

Lemma retained_after clock s now isOnline :
  retained (computeDurations clock s now isOnline) =
  match recoveryStart s now isOnline with
  | Some t => recoveryIncident clock t now :: firstn 9 (retained s)
  | None => retained s
  end.
Proof.
  unfold retained. rewrite downtimeIncidents_after. reflexivity.
Qed.





End Downtime.



Section History.

Lemma find_last {A : Type} (f : A -> bool) (l : list A) (x : A) :
  find f (l ++ [x]) =
  match find f l with
  | Some y => Some y
  | None => if f x then Some x else None
  end.
Proof.
  induction l as [|y l IH]; cbn; [reflexivity|].
  destruct (f y); [reflexivity | exact IH].
Qed.

Lemma lastOnline_run cs : forall s,
  lastOnline (runTicks s cs) =
  match find onlineAt (rev cs) with
  | Some c => Some (Iso (timeOf c))
  | None => lastOnline s
  end.
Proof.
  induction cs as [|c cs IH]; intros s; [reflexivity|].
  change (runTicks s (c :: cs)) with (runTicks (applyTick s c) cs).
  cbn [rev]. rewrite find_last, IH.
  destruct (find onlineAt (rev cs)); [reflexivity|].
  unfold applyTick. rewrite lastOnline_after.
  now destruct (onlineAt c).
Qed.

(** The window of ten moves on as if the whole list had been kept. *)
Lemma firstn_window {A : Type} (n : nat) (R : list A) (x : A) (l : list A) :
  firstn (S n) (R ++ x :: firstn n l) = firstn (S n) (R ++ x :: l).
Proof.
  rewrite !firstn_app. f_equal.
  destruct (S n - length R)%nat as [|m] eqn:E; [reflexivity|].
  cbn [firstn]. f_equal. rewrite firstn_firstn. f_equal. lia.
Qed.

Lemma retained_run cs : forall s,
  (length (retained s) <= 10)%nat ->
  retained (runTicks s cs) = firstn 10 (recorded s cs ++ retained s) /\
  outages (runTicks s cs) = (outages s + Z.of_nat (length (recorded s cs)))%Z.
Proof.
  induction cs as [|c cs IH]; intros s Hlen.
  - cbn [runTicks fold_left recorded app length].
    rewrite firstn_all2 by exact Hlen. split; [reflexivity | lia].
  - change (runTicks s (c :: cs)) with (runTicks (applyTick s c) cs).
    cbn [recorded].
    assert (Hnext : (length (retained (applyTick s c)) <= 10)%nat).
    { unfold applyTick. rewrite retained_after.
      destruct (recoveryStart s (timeOf c) (onlineAt c)); [|exact Hlen].
      cbn [length]. rewrite length_firstn. lia. }
    destruct (IH (applyTick s c) Hnext) as [Hr Ho].
    rewrite Hr, Ho.
    set (R := recorded (applyTick s c) cs). clearbody R.
    unfold applyTick. rewrite retained_after, outages_after.
    destruct (recoveryStart s (timeOf c) (onlineAt c)) as [t|].
    + rewrite <- app_assoc. cbn [app].
      split; [apply (firstn_window 9) |].
      rewrite length_app. cbn [length]. lia.
    + rewrite app_nil_r. split; [reflexivity | lia].
Qed.

End History.

(** X16. Along any run from the default ledger, [lastOnline] is the time
    of the most recent check that found the host online, and null while
    there was none. *)
Theorem lastOnline_is_latest_online_check (cs : list Tick) :
  lastOnline (runTicks defaultStatus cs) =
  match find onlineAt (rev cs) with
  | Some c => Some (Iso (timeOf c))
  | None => None
  end.
Proof. apply lastOnline_run. Qed.

(** X17. Along any run from the default ledger, the retained incidents
    are the ten most recent of all the incidents recorded, the most
    recent first, and [totalOutages] is the number of all of them. *)
Theorem retained_are_ten_most_recent (cs : list Tick) :
  let s := runTicks defaultStatus cs in
  downtimeIncidents s = Some (firstn 10 (recorded defaultStatus cs)) /\
  totalOutages s = Some (Z.of_nat (length (recorded defaultStatus cs))).
Proof.
  cbv zeta.
  destruct (@retained_run cs defaultStatus) as [Hr Ho]; [cbn; lia|].
  rewrite app_nil_r in Hr. cbn in Ho.
  destruct cs as [|c cs]; [split; reflexivity|].
  change (runTicks defaultStatus (c :: cs))
    with (runTicks (applyTick defaultStatus c) cs) in *.
  assert (K : forall k s,
             exists incs n, downtimeIncidents (runTicks (applyTick s k) cs)
                            = Some incs /\
                            totalOutages (runTicks (applyTick s k) cs)
                            = Some n /\ orZeroZ (Some n) = n).
  { clear. induction cs as [|c cs IH]; intros k s.
    - cbn [runTicks fold_left]. unfold applyTick.
      rewrite downtimeIncidents_after, totalOutages_after.
      do 2 eexists. split; [reflexivity|]. split; [reflexivity|].
      apply orZeroZ_Some.
    - change (runTicks (applyTick s k) (c :: cs))
        with (runTicks (applyTick (applyTick s k) c) cs).
      apply IH. }
  destruct (K c defaultStatus) as (incs & n & Hi & Hn & Hz).
  unfold retained in Hr. unfold outages in Ho.
  rewrite Hi in Hr |- *. rewrite Hn in Ho |- *. cbn [orEmpty] in Hr.
  rewrite Hz in Ho. now subst.
Qed.





(** X20. [computeDurations] of the page in is-csct.status.js computes
    every field as [computeDurations] of the script does, whatever the
    clock reads, except that it leaves [downtimeIncidents] and
    [totalOutages] as they were: it records no incident and creates
    neither field. *)
Theorem page_engine_is_script_engine_without_incidents
        (clock : Z) (prev : Ledger) (now : Z) (isOnline : bool) :
  IsCsctStatus.computeDurations prev now isOnline =
  set_totalOutages (totalOutages prev)
    (set_downtimeIncidents (downtimeIncidents prev)
       (PingCsct.computeDurations clock prev now isOnline)).
Proof. apply computeDurations_agree. Qed.
